(** * predictive-youtube.py: fetch, merge and engagement pipeline

    A shallow embedding of [src/predictive-youtube.py].  Python values are
    an inductive type, dictionaries are association lists in insertion
    order, exceptions are an error monad, the API client is a pair of
    functions from requests to responses, and float64 values are Rocq's
    primitive binary64 floats. *)

From Stdlib Require Import ZArith List String Ascii Bool Lia.
From Stdlib Require Import DecimalString DecimalNat DecimalFacts.
From Stdlib Require Import Floats.
From stdpp Require Import base option list.

Set Warnings "-register-all".
Open Scope string_scope.
Open Scope Z_scope.

(** ** Python values *)

Module Py.

(** Keys of [KeyError]: a string key of a dict or (for [d[0]] on a dict)
    an integer. *)
Inductive key :=
| KStr (s : string)
| KInt (z : Z).

(** The exceptions that the script can raise.  None of them is defined
    by the script itself: it has no [class] statement, no [raise] and no
    [try]. *)
Inductive exn :=
| KeyError (k : key)
| IndexError
| TypeError
| ValueError
| OverflowError
| AttributeError
| MalformedDurationError (s : string)
| HttpError (status : Z).

(** Class name of an exception, as Python reports it. *)
Definition exn_name (e : exn) : string :=
  match e with
  | KeyError _ => "KeyError"
  | IndexError => "IndexError"
  | TypeError => "TypeError"
  | ValueError => "ValueError"
  | OverflowError => "OverflowError"
  | AttributeError => "AttributeError"
  | MalformedDurationError _ => "MalformedDurationError"
  | HttpError _ => "HttpError"
  end.

Inductive result (A : Type) :=
| Ok (a : A)
| Raise (e : exn).
Arguments Ok {A} a.
Arguments Raise {A} e.

Definition bind {A B} (m : result A) (k : A -> result B) : result B :=
  match m with
  | Ok a => k a
  | Raise e => Raise e
  end.

Definition raises {A} (m : result A) : bool :=
  match m with Ok _ => false | Raise _ => true end.

(** JSON-like Python values: what the API client returns and what the
    script stores in its dicts. *)
Inductive val :=
| VNone
| VBool (b : bool)
| VInt (z : Z)
| VFloat (f : float)
| VStr (s : string)
| VList (l : list val)
| VDict (d : list (string * val)).

(** A dict with string keys, in insertion order. *)
Definition dict := list (string * val).

End Py.
Export Py.

(** [result] is a monad; stdpp's [x ← m; k] notation sequences statements
    and stops at the first exception. *)
#[export] Instance result_ret : MRet result := @Ok.
#[export] Instance result_bind : MBind result := fun A B k m => bind m k.

(** ** Dictionaries *)

(** Lookup in an association list with string keys: [d.get(k)] as an
    option. *)
Fixpoint dict_lookup {V} (k : string) (d : list (string * V)) : option V :=
  match d with
  | [] => None
  | (k', v) :: d' => if String.eqb k k' then Some v else dict_lookup k d'
  end.

(** [d[k] = v]: an existing key keeps its position, a new key goes last. *)
Fixpoint dict_set {V} (k : string) (v : V) (d : list (string * V))
  : list (string * V) :=
  match d with
  | [] => [(k, v)]
  | (k', v') :: d' =>
      if String.eqb k k' then (k', v) :: d' else (k', v') :: dict_set k v d'
  end.

(** [d.update(other)]: the items of [other], in order, are set in [d]. *)
Definition dict_update (d other : dict) : dict :=
  fold_left (fun acc kv => dict_set (fst kv) (snd kv) acc) other d.

Definition dict_keys (d : dict) : list string := map fst d.

(** [v[k]] with a string key. *)
Definition getitem (v : val) (k : string) : result val :=
  match v with
  | VDict d =>
      match dict_lookup k d with
      | Some x => Ok x
      | None => Raise (KeyError (KStr k))
      end
  | _ => Raise TypeError
  end.

(** [v[0]]. *)
Definition getitem0 (v : val) : result val :=
  match v with
  | VList [] => Raise IndexError
  | VList (x :: _) => Ok x
  | VStr EmptyString => Raise IndexError
  | VStr (String c _) => Ok (VStr (String c EmptyString))
  | VDict _ => Raise (KeyError (KInt 0))
  | _ => Raise TypeError
  end.

(** [v.get(k, default)]: only dicts have [get]. *)
Definition get_default (v : val) (k : string) (default : val) : result val :=
  match v with
  | VDict d =>
      match dict_lookup k d with
      | Some x => Ok x
      | None => Ok default
      end
  | _ => Raise AttributeError
  end.

(** The values a [for] loop over [v] visits. *)
Definition iterate (v : val) : result (list val) :=
  match v with
  | VList l => Ok l
  | VDict d => Ok (map (fun kv => VStr (fst kv)) d)
  | VStr s => Ok (map (fun c => VStr (String c EmptyString)) (list_ascii_of_string s))
  | _ => Raise TypeError
  end.

(** ** Numbers *)

(** The binary64 float nearest to an integer (ties to even). *)
Definition Z2float (z : Z) : float :=
  SF2Prim (binary_normalize prec emax z 0 false).

Definition is_digit (c : ascii) : bool :=
  let n := N_of_ascii c in ((48 <=? n) && (n <=? 57))%N.

Definition digit_val (c : ascii) : Z := Z.of_N (N_of_ascii c) - 48.

(** Whitespace removed by [int] around a literal. *)
Definition is_space (c : ascii) : bool :=
  let n := N_of_ascii c in
  (((9 <=? n) && (n <=? 13)) || ((28 <=? n) && (n <=? 32)))%N.

Fixpoint lstrip (s : list ascii) : list ascii :=
  match s with
  | c :: s' => if is_space c then lstrip s' else s
  | [] => []
  end.

Definition strip (s : list ascii) : list ascii :=
  rev (lstrip (rev (lstrip s))).

(** Decimal digits with single underscores between them, as [int]
    accepts them. [prev] tells whether the previous character was a digit. *)
Fixpoint int_digits (acc : Z) (prev : bool) (s : list ascii) : option Z :=
  match s with
  | [] => if prev then Some acc else None
  | c :: s' =>
      if is_digit c then int_digits (10 * acc + digit_val c) true s'
      else if Ascii.eqb c "_" && prev then int_digits acc false s'
      else None
  end.

Definition int_of_string (s : string) : result Z :=
  let body := strip (list_ascii_of_string s) in
  let signed :=
    match body with
    | "-"%char :: ds => option_map Z.opp (int_digits 0 false ds)
    | "+"%char :: ds => int_digits 0 false ds
    | ds => int_digits 0 false ds
    end in
  match signed with
  | Some z => Ok z
  | None => Raise ValueError
  end.

(** [int(f)] on a float: truncation toward zero. *)
Definition int_of_float (f : float) : result Z :=
  match Prim2SF f with
  | S754_zero _ => Ok 0
  | S754_infinity _ => Raise OverflowError
  | S754_nan => Raise ValueError
  | S754_finite s m e =>
      let mag := if 0 <=? e then Z.pos m * 2 ^ e else Z.pos m / 2 ^ (- e) in
      Ok (if s then - mag else mag)
  end.

(** The builtin [int(v)]. *)
Definition py_int (v : val) : result Z :=
  match v with
  | VInt z => Ok z
  | VBool b => Ok (if b then 1 else 0)
  | VFloat f => int_of_float f
  | VStr s => int_of_string s
  | VNone | VList _ | VDict _ => Raise TypeError
  end.

(** ** Durations *)

(** A maximal run of decimal digits at the head of [s] and what follows
    it; [None] when [s] does not start with a digit. *)
Fixpoint read_digits (acc : option Z) (s : string) : option Z * string :=
  match s with
  | String c s' =>
      if is_digit c
      then read_digits (Some (10 * default 0 acc + digit_val c)) s'
      else (acc, s)
  | EmptyString => (acc, s)
  end.

(** An optional component [n<d>] at the head of [s]: its value (0 when
    absent) and the rest of the string. *)
Definition field (d : ascii) (s : string) : Z * string :=
  match read_digits None s with
  | (Some n, String c rest) => if Ascii.eqb c d then (n, rest) else (0, s)
  | _ => (0, s)
  end.

(** A [timedelta] of whole seconds. *)
Record timedelta := { td_seconds : Z }.

(** Modelled from the spec: [isodate.parse_duration] is a function of the
    third-party [isodate] package; its code is not part of the
    repository.  The spec (4.1) gives the grammar [PTnHnMnS] with each
    component optional, the result [H*3600 + M*60 + S] seconds, and a
    failure ([MalformedDurationError]; [isodate] names its exception
    [ISO8601Error]) for a string outside the grammar. *)
Definition parse_duration (v : val) : result timedelta :=
  match v with
  | VStr datestring =>
      match datestring with
      | String "P" (String "T" s1) =>
          let '(h, s2) := field "H" s1 in
          let '(m, s3) := field "M" s2 in
          let '(s, s4) := field "S" s3 in
          match s4 with
          | EmptyString => Ok {| td_seconds := h * 3600 + m * 60 + s |}
          | _ => Raise (MalformedDurationError datestring)
          end
      | _ => Raise (MalformedDurationError datestring)
      end
  | _ => Raise TypeError
  end.

(** [timedelta.total_seconds()]: the number of seconds as a float. *)
Definition total_seconds (td : timedelta) : float := Z2float (td_seconds td).

(** ** The API client *)

(** [youtube.search().list(part, channelId, maxResults, order)]. *)
Record search_request := {
  sr_part : string;
  sr_channelId : string;
  sr_maxResults : Z;
  sr_order : string
}.

(** [youtube.videos().list(part, id)]. *)
Record videos_request := {
  vr_part : string;
  vr_id : val
}.

(** The client built by [build('youtube', 'v3', ...)]: [execute()] of a
    request answers with a JSON document or raises. *)
Record client := {
  search_list : search_request -> result val;
  videos_list : videos_request -> result val
}.

(** ** get_channel_videos *)

(** The body of the [for item in response['items']] loop: the dict that
    is appended to [video_data]. *)
Definition video_summary (item : val) : result dict :=
  id ← getitem item "id";
  video_id ← getitem id "videoId";
  snippet ← getitem item "snippet";
  title ← getitem snippet "title";
  snippet' ← getitem item "snippet";
  publishedAt ← getitem snippet' "publishedAt";
  mret [("video_id", video_id); ("title", title); ("publishedAt", publishedAt)].

Fixpoint videos_loop (items : list val) (video_data : list dict)
  : result (list dict) :=
  match items with
  | [] => Ok video_data
  | item :: rest =>
      d ← video_summary item;
      videos_loop rest (video_data ++ [d])%list
  end.

Definition channel_request (channel_id : string) : search_request :=
  {| sr_part := "snippet"; sr_channelId := channel_id;
     sr_maxResults := 50; sr_order := "date" |}.

Definition get_channel_videos (channel_id : string) (youtube : client)
  : result (list dict) :=
  response ← search_list youtube (channel_request channel_id);
  items_v ← getitem response "items";
  items ← iterate items_v;
  videos_loop items [].

(** ** get_video_stats *)

(** Lines 87-88: the duration of a video in seconds. *)
Definition duration_seconds (content_details : val) : result float :=
  duration_iso ← get_default content_details "duration" (VStr "PT0S");
  td ← parse_duration duration_iso;
  mret (total_seconds td).

(** [int(stats.get(k, 0))]. *)
Definition counter (stats : val) (k : string) : result Z :=
  v ← get_default stats k (VInt 0);
  py_int v.

(** Lines 83-95: what [get_video_stats] does with the response. *)
Definition stats_of_response (response : val) : result dict :=
  items ← getitem response "items";
  item0 ← getitem0 items;
  stats ← getitem item0 "statistics";
  items' ← getitem response "items";
  item0' ← getitem0 items';
  content_details ← getitem item0' "contentDetails";
  duration ← duration_seconds content_details;
  views ← counter stats "viewCount";
  likes ← counter stats "likeCount";
  comments ← counter stats "commentCount";
  mret [("views", VInt views); ("likes", VInt likes);
        ("duration", VFloat duration); ("comments", VInt comments)].

Definition stats_request (video_id : val) : videos_request :=
  {| vr_part := "statistics,contentDetails"; vr_id := video_id |}.

Definition get_video_stats (video_id : val) (youtube : client) : result dict :=
  response ← videos_list youtube (stats_request video_id);
  stats_of_response response.

(** ** The module-level pipeline *)

(** Line 100: [[get_video_stats(video['video_id'], youtube) for video in videos]]. *)
Fixpoint stats_comprehension (videos : list dict) (youtube : client)
  : result (list dict) :=
  match videos with
  | [] => Ok []
  | video :: rest =>
      video_id ← getitem (VDict video) "video_id";
      st ← get_video_stats video_id youtube;
      sts ← stats_comprehension rest youtube;
      mret (st :: sts)
  end.

(** Lines 102-103.  The list [videos] holds the dict objects that
    [get_channel_videos] returned; position [i] is the identity of the
    object [videos[i]].  [videos[i].update(...)] changes that object in
    place, so the state of the loop is the list of the objects' current
    contents. *)
Definition merge_step (videos_stats : list dict) (acc : result (list dict))
    (i : nat) : result (list dict) :=
  videos ← acc;
  match videos !! i, videos_stats !! i with
  | Some video, Some st => Ok (<[i := dict_update video st]> videos)
  | _, _ => Raise IndexError
  end.

Definition merge_loop (videos videos_stats : list dict) : result (list dict) :=
  fold_left (merge_step videos_stats) (seq 0 (length videos)) (Ok videos).

(** ** The data frame *)

(** A [pandas.DataFrame]: the number of rows and the columns in order,
    each a series with one cell per row. *)
Record DataFrame := {
  df_index : nat;
  df_columns : list (string * list val)
}.

(** The column labels of [pd.DataFrame(records)]: the keys of the
    records in order of first appearance. *)
Definition add_keys (cols : list string) (d : dict) : list string :=
  fold_left (fun cs k => if existsb (String.eqb k) cs then cs else (cs ++ [k])%list)
            (dict_keys d) cols.

Definition frame_keys (records : list dict) : list string :=
  fold_left add_keys records [].

(** A record without the key gives a NaN cell. *)
Definition cell (k : string) (d : dict) : val :=
  default (VFloat nan) (dict_lookup k d).

(** [pd.DataFrame(records)]. *)
Definition make_frame (records : list dict) : DataFrame :=
  {| df_index := length records;
     df_columns := map (fun k => (k, map (cell k) records)) (frame_keys records) |}.

(** [df[c]]. *)
Definition column (df : DataFrame) (c : string) : result (list val) :=
  match dict_lookup c (df_columns df) with
  | Some s => Ok s
  | None => Raise (KeyError (KStr c))
  end.

(** [df[[c1; ...; cn]]]. *)
Fixpoint select (df : DataFrame) (cs : list string)
  : result (list (string * list val)) :=
  match cs with
  | [] => Ok []
  | c :: cs' =>
      s ← column df c;
      rest ← select df cs';
      mret ((c, s) :: rest)
  end.

(** [df[c] = s]. *)
Definition set_column (df : DataFrame) (c : string) (s : list val) : DataFrame :=
  {| df_index := df_index df; df_columns := dict_set c s (df_columns df) |}.

(** [df.head(n)]. *)
Definition df_head (n : nat) (df : DataFrame) : DataFrame :=
  {| df_index := Nat.min n (df_index df);
     df_columns := map (fun cs => (fst cs, take n (snd cs))) (df_columns df) |}.

(** Addition in an int64 column wraps around. *)
Definition wrap64 (z : Z) : Z := (z + 2 ^ 63) mod 2 ^ 64 - 2 ^ 63.

Definition to_float (v : val) : result float :=
  match v with
  | VInt z => Ok (Z2float z)
  | VFloat f => Ok f
  | _ => Raise TypeError
  end.

(** One cell of [s1 + s2].  The script adds the columns [likes] and
    [comments], whose cells are the ints that [get_video_stats] made. *)
Definition cell_add (a b : val) : result val :=
  match a, b with
  | VInt x, VInt y => Ok (VInt (wrap64 (x + y)))
  | _, _ => x ← to_float a; y ← to_float b; mret (VFloat (x + y)%float)
  end.

(** One cell of [s1 / s2]: true division in float64; a zero divisor
    gives an infinity or NaN, not an exception. *)
Definition cell_truediv (a b : val) : result val :=
  x ← to_float a; y ← to_float b; mret (VFloat (x / y)%float).

(** A binary operator applied cell by cell to two series of one frame. *)
Fixpoint series_op (op : val -> val -> result val) (s1 s2 : list val)
  : result (list val) :=
  match s1, s2 with
  | a :: s1', b :: s2' =>
      c ← op a b;
      rest ← series_op op s1' s2';
      mret (c :: rest)
  | _, _ => Ok []
  end.

(** Line 108:
    [df['engagement_rate'] = (df['likes'] + df['comments'])/df['views']]. *)
Definition add_engagement_rate (df : DataFrame) : result DataFrame :=
  likes ← column df "likes";
  comments ← column df "comments";
  interactions ← series_op cell_add likes comments;
  views ← column df "views";
  rate ← series_op cell_truediv interactions views;
  mret (set_column df "engagement_rate" rate).

Definition features : list string := ["views"; "likes"; "comments"; "duration"].
Definition target : string := "engagement_rate".

(** ** The script *)

(** What the script shows: the printed preview, the two figures and
    the two printed scores. *)
Inductive event :=
| PrintFrame (df : DataFrame)
| ShowFigure (name : string)
| PrintScore (label : string) (x : float).

(** Lines 97-105: the frame built from the fetched and merged records. *)
Definition fetch_frame (channel_id : string) (youtube : client)
  : result DataFrame :=
  videos ← get_channel_videos channel_id youtube;
  videos_stats ← stats_comprehension videos youtube;
  videos' ← merge_loop videos videos_stats;
  mret (make_frame videos').

(** Lines 108-118: the feature table [X] and the target [y] that go
    into scaling, splitting and fitting. *)
Definition regression_input (df : DataFrame)
  : result (list (string * list val) * list val) :=
  df' ← add_engagement_rate df;
  X ← select df' features;
  y ← column df' target;
  mret (X, y).

Record run := {
  output : list event;
  outcome : result unit
}.

Section Script.

(** Lines 114-133, the calls into scikit-learn: scaling, the split,
    the fit, the prediction and the two scores (mean squared error,
    R squared), or the exception the library raises. *)
Variable trainer : list (string * list val) -> list val -> result (float * float).

Definition script (channel_id : string) (youtube : client) : run :=
  match fetch_frame channel_id youtube with
  | Raise e => {| output := []; outcome := Raise e |}
  | Ok df =>
      let preview := [PrintFrame (df_head 10 df)] in
      match '(X, y) ← regression_input df; trainer X y with
      | Raise e => {| output := preview; outcome := Raise e |}
      | Ok (mse, r2) =>
          {| output := (preview ++
               [ShowFigure "heatmap"; ShowFigure "boxplot";
                PrintScore "Mean Squared Error" mse;
                PrintScore "R-squared" r2])%list;
             outcome := Ok tt |}
      end
  end.

End Script.

(** ** Vocabulary of the properties *)

(** The decimal numeral of [n]. *)
Definition decimal (n : nat) : string :=
  NilEmpty.string_of_uint (Nat.to_uint n).

(** An optional component [n<d>] of a duration string. *)
Definition component (n : option nat) (d : ascii) : string :=
  match n with
  | Some k => decimal k ++ String d EmptyString
  | None => EmptyString
  end.

(** The duration string [PTnHnMnS] with the given components. *)
Definition render_duration (h m s : option nat) : string :=
  "PT" ++ component h "H" ++ component m "M" ++ component s "S".

(** [H*3600 + M*60 + S], an absent component counting 0. *)
Definition duration_total (h m s : option nat) : Z :=
  Z.of_nat (default 0%nat h) * 3600 + Z.of_nat (default 0%nat m) * 60
  + Z.of_nat (default 0%nat s).






(** The keys of a summary and the keys of the statistics. *)
Definition summary_keys : list string := ["video_id"; "title"; "publishedAt"].
Definition stats_keys : list string := ["views"; "likes"; "duration"; "comments"].

(** A search result for a video. *)
Definition search_item (video_id title published : string) : val :=
  VDict [("kind", VStr "youtube#searchResult");
         ("id", VDict [("kind", VStr "youtube#video"); ("videoId", VStr video_id)]);
         ("snippet", VDict [("publishedAt", VStr published); ("title", VStr title)])].

(** An item of a video-detail response. *)
Definition detail_item (views likes comments duration : string) : val :=
  VDict
    [("statistics", VDict [("viewCount", VStr views); ("likeCount", VStr likes);
                           ("commentCount", VStr comments)]);
     ("contentDetails", VDict [("duration", VStr duration)])].

(** A video-detail response with one item. *)
Definition detail_response (views likes comments duration : string) : val :=
  VDict [("items", VList [detail_item views likes comments duration])].

Definition empty_response : val := VDict [("items", VList [])].

(** A channel without videos. *)
Definition empty_channel : client :=
  {| search_list := fun _ => Ok empty_response;
     videos_list := fun _ => Ok empty_response |}.


(** The scenario of the spec (section 8): three summaries and the
    statistics of their videos. *)
Definition scenario_summaries : list dict :=
  [[("video_id", VStr "a"); ("title", VStr "A");
    ("publishedAt", VStr "2024-03-01T00:00:00Z")];
   [("video_id", VStr "b"); ("title", VStr "B");
    ("publishedAt", VStr "2024-02-01T00:00:00Z")];
   [("video_id", VStr "c"); ("title", VStr "C");
    ("publishedAt", VStr "2024-01-01T00:00:00Z")]].

(** The dict that [get_channel_videos] appends for one search result. *)
Definition summary_record (video_id title published : val) : dict :=
  [("video_id", video_id); ("title", title); ("publishedAt", published)].

(** The dict that [get_video_stats] returns. *)
Definition video_stats (views likes comments : Z) (duration : float) : dict :=
  [("views", VInt views); ("likes", VInt likes);
   ("duration", VFloat duration); ("comments", VInt comments)].

Definition scenario_stats : list dict :=
  [video_stats 100 10 5 120; video_stats 0 0 0 30; video_stats 50 1 1 200].

(** A channel that serves the scenario. *)
Definition scenario_channel : client :=
  {| search_list := fun _ =>
       Ok (VDict [("items",
             VList [search_item "a" "A" "2024-03-01T00:00:00Z";
                    search_item "b" "B" "2024-02-01T00:00:00Z";
                    search_item "c" "C" "2024-01-01T00:00:00Z"])]);
     videos_list := fun r =>
       match vr_id r with
       | VStr "a" => Ok (detail_response "100" "10" "5" "PT2M")
       | VStr "b" => Ok (detail_response "0" "0" "0" "PT30S")
       | VStr "c" => Ok (detail_response "50" "1" "1" "PT3M20S")
       | _ => Ok empty_response
       end |}.

(** A service whose video-detail responses carry a second item. *)
Definition padded_channel : client :=
  {| search_list := fun _ => Ok empty_response;
     videos_list := fun _ =>
       Ok (VDict [("items", VList [detail_item "100" "10" "5" "PT2M";
                                   detail_item "7" "7" "7" "PT7S"])]) |}.

(** A regression step that rejects what scikit-learn rejects first: an
    empty table. *)
Definition strict_trainer (X : list (string * list val)) (y : list val)
  : result (float * float) :=
  match y with
  | [] => Raise ValueError
  | _ => Ok (0%float, 0%float)
  end.

(** The shape of the dicts of the lister and of the fetcher. *)
Definition is_summary (d : dict) : Prop :=
  exists video_id title published, d = summary_record video_id title published.

Definition is_stats (d : dict) : Prop :=
  exists views likes comments duration,
    d = video_stats views likes comments duration.

(** An int stored under [k]. *)
Definition int_field (k : string) (r : dict) : option Z :=
  match dict_lookup k r with
  | Some (VInt z) => Some z
  | _ => None
  end.

(** A record that carries what [get_video_stats] returns: three int
    counters and a duration. *)
Definition stats_record (r : dict) : Prop :=
  is_Some (int_field "views" r) /\ is_Some (int_field "likes" r)
  /\ is_Some (int_field "comments" r) /\ is_Some (dict_lookup "duration" r).



(** Line 100, the element of the comprehension:
    [get_video_stats(video['video_id'], youtube)]. *)
Definition fetch_stats (video : dict) (youtube : client) : result dict :=
  video_id ← getitem (VDict video) "video_id";
  get_video_stats video_id youtube.

(** The three fields of a search result that the lister reads. *)
Definition has_video_fields (item video_id title published : val) : Prop :=
  exists id snippet,
    getitem item "id" = Ok id
    /\ getitem id "videoId" = Ok video_id
    /\ getitem item "snippet" = Ok snippet
    /\ getitem snippet "title" = Ok title
    /\ getitem snippet "publishedAt" = Ok published.


(** A counter of the [statistics] section as the service sends it: a
    decimal string, or nothing. *)
Definition count_cell (n : option nat) : option val :=
  option_map (fun k => VStr (decimal k)) n.

(** The value of a counter, a missing one counting 0. *)
Definition count_value (n : option nat) : Z := Z.of_nat (default 0%nat n).

(** A search result that is a channel, not a video: its [id] has no
    [videoId]. *)
Definition channel_item (channel_id title published : string) : val :=
  VDict [("kind", VStr "youtube#searchResult");
         ("id", VDict [("kind", VStr "youtube#channel");
                       ("channelId", VStr channel_id)]);
         ("snippet", VDict [("publishedAt", VStr published); ("title", VStr title)])].

(** A page whose second result is the channel itself. *)
Definition mixed_page : client :=
  {| search_list := fun _ =>
       Ok (VDict [("items",
             VList [search_item "a" "A" "2024-03-01T00:00:00Z";
                    channel_item "ch" "Channel" "2020-01-01T00:00:00Z";
                    search_item "c" "C" "2024-01-01T00:00:00Z"])]);
     videos_list := fun _ => Ok (detail_response "1" "1" "1" "PT1S") |}.

(** A channel whose second video is gone when its statistics are
    asked for. *)
Definition vanished_channel : client :=
  {| search_list := fun _ =>
       Ok (VDict [("items",
             VList [search_item "a" "A" "2024-03-01T00:00:00Z";
                    search_item "b" "B" "2024-02-01T00:00:00Z"])]);
     videos_list := fun r =>
       match vr_id r with
       | VStr "a" => Ok (detail_response "100" "10" "5" "PT2M")
       | _ => Ok empty_response
       end |}.

(** A service that answers the detail request with a video without
    counters and without duration, and one that leaves a section out. *)
Definition bare_channel : client :=
  {| search_list := fun _ => Ok empty_response;
     videos_list := fun _ =>
       Ok (VDict [("items", VList [VDict [("statistics", VDict []);
                                          ("contentDetails", VDict [])]])]) |}.

Definition sectionless_channel : client :=
  {| search_list := fun _ => Ok empty_response;
     videos_list := fun _ =>
       Ok (VDict [("items", VList [VDict [("statistics", VDict [])]])]) |}.


(** * Checks on concrete inputs *)

Example Z2float_3730 : Z2float 3730 = 3730%float.
Proof. reflexivity. Qed.
Example Z2float_neg : Z2float (-5) = (-5)%float.
Proof. reflexivity. Qed.
Example Z2float_big : Z2float (2^53 + 1) = 9007199254740992%float.
Proof. reflexivity. Qed.
Example py_int_str : py_int (VStr "1024") = Ok 1024.
Proof. reflexivity. Qed.
Example py_int_default : py_int (VInt 0) = Ok 0.
Proof. reflexivity. Qed.
Example py_int_bad : py_int (VStr "12a") = Raise ValueError.
Proof. reflexivity. Qed.
Example py_int_float : py_int (VFloat (-2.75)%float) = Ok (-2).
Proof. reflexivity. Qed.
Example parse_PT1H2M10S :
  parse_duration (VStr "PT1H2M10S") = Ok {| td_seconds := 3730 |}.
Proof. reflexivity. Qed.
Example parse_PT15M :
  parse_duration (VStr "PT15M") = Ok {| td_seconds := 900 |}.
Proof. reflexivity. Qed.
Example parse_bad_order :
  parse_duration (VStr "PT1S2H") = Raise (MalformedDurationError "PT1S2H").
Proof. reflexivity. Qed.
Example scenario_fetch :
  get_channel_videos "ch" scenario_channel = Ok scenario_summaries
  /\ stats_comprehension scenario_summaries scenario_channel = Ok scenario_stats.
Proof. split; reflexivity. Qed.
Example render_PT1H2M10S :
  render_duration (Some 1%nat) (Some 2%nat) (Some 10%nat) = "PT1H2M10S".
Proof. reflexivity. Qed.
Example render_PT0S : render_duration None None (Some 0%nat) = "PT0S".
Proof. reflexivity. Qed.

(** * Lemmas *)

(** ** Reading decimal numerals *)

Lemma to_uint_nonnil n : Nat.to_uint n <> Decimal.Nil.
Proof.
  rewrite <- (Unsigned.of_to n), Unsigned.to_of.
  unfold Decimal.unorm. destruct (Decimal.nzhead _); discriminate.
Qed.

Lemma read_digits_uint u : forall (a : nat) c rest,
  is_digit c = false ->
  read_digits (Some (Z.of_nat a)) (NilEmpty.string_of_uint u ++ String c rest)
  = (Some (Z.of_nat (Nat.of_uint_acc u a)), String c rest).
Proof.
  induction u; intros a c rest Hc; simpl;
    try (rewrite Nat.tail_mul_spec;
         match goal with
         | |- read_digits (Some ?z) _ = (Some (Z.of_nat (Nat.of_uint_acc _ ?k)), _) =>
             replace z with (Z.of_nat k) by (unfold digit_val; simpl; lia)
         end; now apply IHu).
  now rewrite Hc.
Qed.

Lemma read_digits_decimal n c rest :
  is_digit c = false ->
  read_digits None (decimal n ++ String c rest) = (Some (Z.of_nat n), String c rest).
Proof.
  intros Hc. unfold decimal.
  rewrite <- (Unsigned.of_to n) at 2.
  pose proof (to_uint_nonnil n) as Hn.
  unfold Nat.of_uint.
  destruct (Nat.to_uint n) as [|u|u|u|u|u|u|u|u|u|u]; [congruence|..]; simpl;
    rewrite Nat.tail_mul_spec;
    match goal with
    | |- read_digits (Some ?z) _ = (Some (Z.of_nat (Nat.of_uint_acc _ ?k)), _) =>
        replace z with (Z.of_nat k) by (unfold digit_val; simpl; lia)
    end; now apply read_digits_uint.
Qed.

Lemma append_assoc (a b c : string) : (a ++ b) ++ c = a ++ (b ++ c).
Proof. induction a; simpl; congruence. Qed.

Lemma field_decimal n c d rest :
  is_digit c = false ->
  field d (decimal n ++ String c rest)
  = if Ascii.eqb c d then (Z.of_nat n, rest) else (0, decimal n ++ String c rest).
Proof.
  intros Hc. unfold field. now rewrite read_digits_decimal.
Qed.

Lemma field_component n d rest :
  is_digit d = false ->
  field d (component (Some n) d ++ rest) = (Z.of_nat n, rest).
Proof.
  intros Hd. unfold component. rewrite append_assoc. simpl.
  rewrite field_decimal by done. now rewrite Ascii.eqb_refl.
Qed.

Lemma field_other n c d rest :
  is_digit c = false -> Ascii.eqb c d = false ->
  field d (component (Some n) c ++ rest) = (0, component (Some n) c ++ rest).
Proof.
  intros Hc Hcd. unfold component. rewrite append_assoc. simpl.
  rewrite field_decimal by done. now rewrite Hcd.
Qed.

Lemma field_empty d : field d "" = (0, "").
Proof. reflexivity. Qed.

Lemma append_nil_r (a : string) : a ++ "" = a.
Proof. induction a; simpl; congruence. Qed.

Lemma parse_render h m s :
  parse_duration (VStr (render_duration h m s))
  = Ok {| td_seconds := duration_total h m s |}.
Proof.
  unfold render_duration, duration_total.
  rewrite <- (append_nil_r (component s "S")).
  unfold parse_duration.
  destruct h as [h|], m as [m|], s as [s|];
    change (component None ?d) with "" in *; cbn [append default];
    repeat first
      [ rewrite field_component by reflexivity
      | rewrite field_other by reflexivity
      | rewrite field_empty ];
    reflexivity.
Qed.

(** ** The monad *)

Lemma bind_Ok {A B} (m : result A) (k : A -> result B) a :
  m = Ok a -> (m ≫= k) = k a.
Proof. now intros ->. Qed.

Lemma bind_inv_Ok {A B} (m : result A) (k : A -> result B) b :
  (m ≫= k) = Ok b -> exists a, m = Ok a /\ k a = Ok b.
Proof. destruct m as [a|e]; [eauto | discriminate]. Qed.

Ltac inv_bind H :=
  let a := fresh "x" in
  let Ha := fresh "H" a in
  apply bind_inv_Ok in H; destruct H as (a & Ha & H).

Lemma exn_name_not (e : exn) (name : string) :
  name <> "KeyError" -> name <> "IndexError" -> name <> "TypeError" ->
  name <> "ValueError" -> name <> "OverflowError" -> name <> "AttributeError" ->
  name <> "MalformedDurationError" -> name <> "HttpError" ->
  exn_name e <> name.
Proof. destruct e; simpl; congruence. Qed.

(** ** get_channel_videos *)

Lemma videos_loop_spec items : forall video_data vs,
  videos_loop items video_data = Ok vs <->
  exists ds, Forall2 (fun item d => video_summary item = Ok d) items ds
             /\ vs = (video_data ++ ds)%list.
Proof.
  induction items as [|item items IH]; intros video_data vs; simpl.
  - split.
    + intros [= <-]. exists []. split; [constructor | now rewrite app_nil_r].
    + intros (ds & Hds & ->). inversion Hds. now rewrite app_nil_r.
  - split.
    + intros H. inv_bind H. apply IH in H as (ds & Hds & ->).
      exists (x :: ds). split; [now constructor | now rewrite <- app_assoc].
    + intros (ds & Hds & ->). inversion Hds as [|? d ? ds' Hd Hds']; subst.
      rewrite (bind_Ok _ _ _ Hd). apply IH. exists ds'.
      split; [done | now rewrite <- app_assoc].
Qed.


Lemma video_summary_keys item d :
  video_summary item = Ok d -> dict_keys d = summary_keys.
Proof.
  unfold video_summary. intros H. repeat inv_bind H. now injection H as <-.
Qed.


Lemma get_channel_videos_items ch yt response items :
  search_list yt (channel_request ch) = Ok response ->
  getitem response "items" = Ok (VList items) ->
  get_channel_videos ch yt = videos_loop items [].
Proof.
  intros Hr Hi. unfold get_channel_videos.
  now rewrite (bind_Ok _ _ _ Hr), (bind_Ok _ _ _ Hi).
Qed.


(** ** get_video_stats *)

Lemma stats_of_response_head r1 r2 item l1 l2 :
  getitem r1 "items" = Ok (VList (item :: l1)) ->
  getitem r2 "items" = Ok (VList (item :: l2)) ->
  stats_of_response r1 = stats_of_response r2.
Proof.
  intros H1 H2. unfold stats_of_response.
  rewrite H1, H2. reflexivity.
Qed.

Lemma stats_of_response_no_item response :
  getitem response "items" = Ok (VList []) ->
  stats_of_response response = Raise IndexError.
Proof.
  intros H. unfold stats_of_response. rewrite H. reflexivity.
Qed.

Lemma stats_of_response_keys response s :
  stats_of_response response = Ok s -> dict_keys s = stats_keys.
Proof.
  unfold stats_of_response. intros H. repeat inv_bind H. now injection H as <-.
Qed.

(** ** Dictionaries *)




Lemma dict_set_fresh {V} k (v : V) d :
  k ∉ map fst d -> dict_set k v d = (d ++ [(k, v)])%list.
Proof.
  induction d as [|[k' v'] d IH]; simpl; [done|].
  rewrite not_elem_of_cons. intros [Hne Hd].
  destruct (String.eqb_spec k k'); [congruence|]. now rewrite IH.
Qed.


(** Updating with a dict whose keys are new appends its items. *)
Lemma dict_update_disjoint other : forall d,
  NoDup (dict_keys other) ->
  (forall k, k ∈ dict_keys other -> k ∉ dict_keys d) ->
  dict_update d other = (d ++ other)%list.
Proof.
  unfold dict_update, dict_keys.
  induction other as [|[k v] other IH]; intros d Hnd Hdis; simpl.
  - now rewrite app_nil_r.
  - inversion Hnd as [|? ? Hk Hnd']; subst.
    rewrite dict_set_fresh by (apply Hdis; simpl; left).
    rewrite IH; [now rewrite <- app_assoc | done |].
    intros k' Hk'. rewrite map_app, elem_of_app. simpl.
    intros [H|H%list_elem_of_singleton].
    + revert H. apply Hdis. simpl. now right.
    + subst. done.
Qed.


(** ** The merge loop *)

Lemma merge_prefix (videos videos_stats : list dict) k :
  (k <= length videos)%nat -> (k <= length videos_stats)%nat ->
  fold_left (merge_step videos_stats) (seq 0 k) (Ok videos)
  = Ok (take k (zip_with dict_update videos videos_stats) ++ drop k videos)%list.
Proof.
  intros Hk Hlen. induction k as [|k IH].
  - simpl. now rewrite drop_0.
  - rewrite seq_S, fold_left_app, IH by lia. simpl.
    destruct (lookup_lt_is_Some_2 videos k) as [v Hv]; [lia|].
    destruct (lookup_lt_is_Some_2 videos_stats k) as [s Hs]; [lia|].
    set (Z := zip_with dict_update videos videos_stats).
    assert (HZ : Z !! k = Some (dict_update v s)).
    { unfold Z. rewrite lookup_zip_with, Hv. simpl. now rewrite Hs. }
    assert (Hpre : length (take k Z) = k).
    { rewrite length_take. apply lookup_lt_Some in HZ. lia. }
    unfold merge_step. simpl.
    rewrite lookup_app_r by lia.
    rewrite Hpre, Nat.sub_diag, lookup_drop, Nat.add_0_r, Hv, Hs.
    f_equal.
    rewrite insert_app_r_alt by lia.
    rewrite Hpre, Nat.sub_diag, (drop_S _ _ _ Hv). simpl.
    rewrite (take_S_r _ _ _ HZ). now rewrite <- app_assoc.
Qed.

Lemma merge_loop_zip (videos videos_stats : list dict) :
  (length videos <= length videos_stats)%nat ->
  merge_loop videos videos_stats = Ok (zip_with dict_update videos videos_stats).
Proof.
  intros Hlen. unfold merge_loop. rewrite merge_prefix by lia.
  rewrite drop_all, app_nil_r, take_ge; [done|].
  rewrite length_zip_with. lia.
Qed.

(** With fewer statistics than videos the loop stops at the first video
    that has none. *)
Lemma merge_loop_short (videos videos_stats : list dict) :
  (length videos_stats < length videos)%nat ->
  merge_loop videos videos_stats = Raise IndexError.
Proof.
  intros Hlen. unfold merge_loop.
  assert (Hsplit : seq 0 (length videos)
    = (seq 0 (length videos_stats) ++ length videos_stats
        :: seq (S (length videos_stats)) (length videos - S (length videos_stats)))%list).
  { replace (length videos) with
      (length videos_stats + S (length videos - S (length videos_stats)))%nat at 1 by lia.
    now rewrite seq_app. }
  rewrite Hsplit, fold_left_app. simpl.
  rewrite merge_prefix by lia.
  assert (Hfail : merge_step videos_stats
            (Ok (take (length videos_stats) (zip_with dict_update videos videos_stats)
                 ++ drop (length videos_stats) videos)%list) (length videos_stats)
          = Raise IndexError).
  { unfold merge_step. simpl.
    rewrite (lookup_ge_None_2 videos_stats) by lia.
    now destruct (_ !! _). }
  rewrite Hfail.
  generalize (seq (S (length videos_stats)) (length videos - S (length videos_stats))).
  intros l. induction l; simpl; [done|]. apply IHl.
Qed.

(** ** Floats *)


(** ** The data frame *)












(** ** Shapes of the fetched records *)

Lemma video_summary_shape item d : video_summary item = Ok d -> is_summary d.
Proof.
  unfold video_summary. intros H. repeat inv_bind H. injection H as <-.
  now eexists _, _, _.
Qed.

Lemma stats_of_response_shape response s :
  stats_of_response response = Ok s -> is_stats s.
Proof.
  unfold stats_of_response. intros H. repeat inv_bind H. injection H as <-.
  now eexists _, _, _, _.
Qed.

Lemma get_channel_videos_shape ch yt videos :
  get_channel_videos ch yt = Ok videos -> Forall is_summary videos.
Proof.
  unfold get_channel_videos. intros H. repeat inv_bind H.
  apply videos_loop_spec in H as (ds & Hds & ->). simpl.
  clear -Hds. induction Hds; constructor; eauto using video_summary_shape.
Qed.

Lemma stats_comprehension_shape yt videos : forall videos_stats,
  stats_comprehension videos yt = Ok videos_stats ->
  Forall2 (fun _ s => is_stats s) videos videos_stats.
Proof.
  induction videos as [|v videos IH]; simpl; intros videos_stats H.
  - injection H as <-. constructor.
  - repeat inv_bind H. injection H as <-. constructor; [|now apply IH].
    unfold get_video_stats in Hx0. inv_bind Hx0.
    eauto using stats_of_response_shape.
Qed.

Lemma merge_record v s :
  is_summary v -> is_stats s -> dict_update v s = (v ++ s)%list.
Proof. intros (a & b & c & ->) (w & l & m & d & ->). reflexivity. Qed.

Lemma merged_stats_record v s :
  is_summary v -> is_stats s -> stats_record (v ++ s)%list.
Proof.
  intros (a & b & c & ->) (w & l & m & d & ->).
  repeat split; eexists; reflexivity.
Qed.


(** The frame of a run: the merged records, one per video, in order. *)
Lemma fetch_frame_merged ch yt videos videos_stats :
  get_channel_videos ch yt = Ok videos ->
  stats_comprehension videos yt = Ok videos_stats ->
  merge_loop videos videos_stats = Ok (zip_with dict_update videos videos_stats)
  /\ fetch_frame ch yt = Ok (make_frame (zip_with dict_update videos videos_stats))
  /\ length videos_stats = length videos
  /\ Forall stats_record (zip_with dict_update videos videos_stats).
Proof.
  intros Hv Hs.
  pose proof (get_channel_videos_shape _ _ _ Hv) as Hshape.
  pose proof (stats_comprehension_shape _ _ _ Hs) as Hshape2.
  assert (Hlen : length videos_stats = length videos).
  { symmetry. eapply Forall2_length, Hshape2. }
  assert (Hall : Forall stats_record (zip_with dict_update videos videos_stats)).
  { clear Hv Hs Hlen. induction Hshape2 as [|v s vs ss Hs _ IH]; simpl.
    - constructor.
    - inversion Hshape as [|? ? Hv Hvs]; subst.
      constructor; [|now apply IH].
      rewrite merge_record by done. now apply merged_stats_record. }
  assert (Hm : merge_loop videos videos_stats
               = Ok (zip_with dict_update videos videos_stats)).
  { apply merge_loop_zip. lia. }
  repeat split; try done.
  unfold fetch_frame. rewrite Hv. simpl. rewrite Hs. simpl. now rewrite Hm.
Qed.

(** * The claims *)

(** C1, counterexample: an empty duration string is not read as 0.0.
    [content_details.get('duration', 'PT0S')] gives the default only when
    the key is missing; the empty string goes to the parser, which
    rejects it. *)
Lemma C1_empty_duration_is_rejected :
  duration_seconds (VDict [("duration", VStr "")])
    = Raise (MalformedDurationError "")
  /\ duration_seconds (VDict [("duration", VStr "")]) <> Ok 0%float.
Proof. split; [reflexivity | discriminate]. Qed.

(** C1 (amended): for every duration string [PTnHnMnS], with any of the
    three components present or absent, the duration of the stats fetcher
    is the float of [H*3600 + M*60 + S]; ["PT1H2M10S"] gives 3730.0 and
    ["PT0S"] gives 0.0; a missing duration gives 0.0; an empty duration
    string is rejected as malformed. *)
Theorem C1_duration_seconds (content_details : dict) :
  (forall h m s,
     dict_lookup "duration" content_details = Some (VStr (render_duration h m s)) ->
     duration_seconds (VDict content_details) = Ok (Z2float (duration_total h m s)))
  /\ (dict_lookup "duration" content_details = None ->
      duration_seconds (VDict content_details) = Ok 0%float)
  /\ (dict_lookup "duration" content_details = Some (VStr "") ->
      duration_seconds (VDict content_details) = Raise (MalformedDurationError ""))
  /\ duration_seconds (VDict [("duration", VStr "PT1H2M10S")]) = Ok 3730%float
  /\ duration_seconds (VDict [("duration", VStr "PT0S")]) = Ok 0%float.
Proof.
  repeat split.
  - intros h m s H. unfold duration_seconds, get_default. rewrite H.
    cbn [mbind result_bind bind]. now rewrite parse_render.
  - intros H. unfold duration_seconds, get_default. now rewrite H.
  - intros H. unfold duration_seconds, get_default. now rewrite H.
Qed.

Lemma C1_duration_seconds_witness :
  dict_lookup "duration" [("duration", VStr "PT1H2M10S")]
    = Some (VStr (render_duration (Some 1%nat) (Some 2%nat) (Some 10%nat)))
  /\ duration_seconds (VDict [("duration", VStr "PT1H2M10S")])
     = Ok (Z2float (duration_total (Some 1%nat) (Some 2%nat) (Some 10%nat))).
Proof.
  split; [reflexivity|].
  exact (proj1 (C1_duration_seconds [("duration", VStr "PT1H2M10S")])
           (Some 1%nat) (Some 2%nat) (Some 10%nat) eq_refl).
Defined.







(** C4, counterexample: when the response has no item the fetcher raises
    [IndexError] from [response['items'][0]], not a
    [VideoNotFoundError]. *)
Lemma C4_missing_video_is_not_handled :
  get_video_stats (VStr "gone") empty_channel = Raise IndexError
  /\ ~ (exists e, get_video_stats (VStr "gone") empty_channel = Raise e
                  /\ exn_name e = "VideoNotFoundError").
Proof.
  split; [reflexivity|]. intros (e & He & Hname).
  injection He as <-. discriminate Hname.
Qed.

(** C4 (amended): for every video id whose detail response contains no
    item, the stats fetcher fails with the [IndexError] of the unguarded
    lookup [response['items'][0]]; no exception of the program is a
    [VideoNotFoundError]. *)
Theorem C4_missing_video_raises_IndexError video_id yt response :
  videos_list yt (stats_request video_id) = Ok response ->
  getitem response "items" = Ok (VList []) ->
  get_video_stats video_id yt = Raise IndexError
  /\ forall e, exn_name e <> "VideoNotFoundError".
Proof.
  intros Hr Hi. split.
  - unfold get_video_stats. rewrite Hr. simpl.
    now apply stats_of_response_no_item.
  - intros e. now apply exn_name_not.
Qed.

Lemma C4_missing_video_raises_IndexError_witness :
  get_video_stats (VStr "gone") empty_channel = Raise IndexError.
Proof.
  exact (proj1 (C4_missing_video_raises_IndexError (VStr "gone") empty_channel
                  empty_response eq_refl eq_refl)).
Defined.

(** C5, counterexample: for a channel without videos the lister returns
    the empty list; it does not fail with [ChannelNotFoundError]. *)
Lemma C5_empty_channel_is_not_an_error :
  get_channel_videos "ch" empty_channel = Ok []
  /\ ~ (exists e, get_channel_videos "ch" empty_channel = Raise e
                  /\ exn_name e = "ChannelNotFoundError").
Proof.
  split; [reflexivity|]. intros (e & He & _). discriminate He.
Qed.

(** C5 (amended): for every channel whose search response has no item
    (a channel without videos, or one the service does not know) the
    lister returns the empty sequence and raises nothing; an exception of
    the client is passed on unchanged; the lister never fails with a
    [ChannelNotFoundError]. *)
Theorem C5_empty_response_yields_empty ch yt :
  (forall response,
     search_list yt (channel_request ch) = Ok response ->
     getitem response "items" = Ok (VList []) ->
     get_channel_videos ch yt = Ok [])
  /\ (forall e,
        search_list yt (channel_request ch) = Raise e ->
        get_channel_videos ch yt = Raise e)
  /\ (forall e,
        get_channel_videos ch yt = Raise e ->
        exn_name e <> "ChannelNotFoundError").
Proof.
  repeat split.
  - intros response Hr Hi.
    now rewrite (get_channel_videos_items _ _ _ _ Hr Hi).
  - intros e Hr. unfold get_channel_videos. now rewrite Hr.
  - intros e _. now apply exn_name_not.
Qed.

Lemma C5_empty_response_yields_empty_witness :
  get_channel_videos "ch" empty_channel = Ok [].
Proof.
  exact (proj1 (C5_empty_response_yields_empty "ch" empty_channel)
           empty_response eq_refl eq_refl).
Defined.

(** C6, counterexample: the dataset assembled from the scenario has three
    rows, not two: no row is excluded. *)
Lemma C6_scenario_has_three_rows :
  exists merged df,
    merge_loop scenario_summaries scenario_stats = Ok merged
    /\ add_engagement_rate (make_frame merged) = Ok df
    /\ df_index df = 3%nat
    /\ df_index df <> 2%nat.
Proof. eexists _, _. repeat split; [reflexivity.. | discriminate]. Qed.

(* The decimal literals below denote the nearest binary64 values, as
   they do in Python. *)
#[local] Set Warnings "-inexact-float".

(** C6 (amended): for any three summaries and the statistics of the
    scenario the assembled dataset contains exactly three rows, whose
    [engagement_rate] values are 0.15, NaN and 0.04. *)
Theorem C6_scenario_dataset (id1 title1 at1 id2 title2 at2 id3 title3 at3 : val) :
  exists merged df,
    merge_loop [summary_record id1 title1 at1; summary_record id2 title2 at2;
                summary_record id3 title3 at3] scenario_stats = Ok merged
    /\ add_engagement_rate (make_frame merged) = Ok df
    /\ df_index df = 3%nat
    /\ column df "engagement_rate"
       = Ok [VFloat 0.15; VFloat nan; VFloat 0.04]
    /\ column df "views" = Ok [VInt 100; VInt 0; VInt 50]
    /\ column df "video_id" = Ok [id1; id2; id3].
Proof. eexists _, _. repeat split; reflexivity. Qed.

(** C7, counterexample: for a channel without videos the run ends with
    [KeyError: 'likes'] at line 108, after printing the preview of the
    empty frame; it does not end normally with a message. *)
Lemma C7_empty_run_raises_KeyError :
  script strict_trainer "ch" empty_channel
    = {| output := [PrintFrame {| df_index := 0; df_columns := [] |}];
         outcome := Raise (KeyError (KStr "likes")) |}
  /\ outcome (script strict_trainer "ch" empty_channel) <> Ok tt.
Proof. split; [reflexivity | discriminate]. Qed.

(** C7 (amended): when the lister returns an empty sequence, merging the
    empty sequences yields an empty dataset (no rows, no columns); the
    run prints its preview and then fails with [KeyError: 'likes'] while
    deriving the engagement rate, before the regression step is reached,
    whatever that step would do. *)
Theorem C7_empty_dataset_run
    (trainer : list (string * list val) -> list val -> result (float * float))
    ch yt :
  get_channel_videos ch yt = Ok [] ->
  merge_loop [] [] = Ok []
  /\ make_frame [] = {| df_index := 0; df_columns := [] |}
  /\ regression_input (make_frame []) = Raise (KeyError (KStr "likes"))
  /\ script trainer ch yt
     = {| output := [PrintFrame {| df_index := 0; df_columns := [] |}];
          outcome := Raise (KeyError (KStr "likes")) |}.
Proof.
  intros H. repeat split.
  unfold script, fetch_frame. rewrite H. reflexivity.
Qed.

Lemma C7_empty_dataset_run_witness :
  script strict_trainer "ch" empty_channel
  = {| output := [PrintFrame {| df_index := 0; df_columns := [] |}];
       outcome := Raise (KeyError (KStr "likes")) |}.
Proof.
  exact (proj2 (proj2 (proj2
    (C7_empty_dataset_run strict_trainer "ch" empty_channel eq_refl)))).
Defined.



(** C9, counterexample: the dict that the lister returned first has
    three keys; after the merge loop the same object has seven. *)
Lemma C9_summary_is_mutated :
  exists videos videos_stats merged before after,
    get_channel_videos "ch" scenario_channel = Ok videos
    /\ stats_comprehension videos scenario_channel = Ok videos_stats
    /\ merge_loop videos videos_stats = Ok merged
    /\ videos !! 0%nat = Some before
    /\ merged !! 0%nat = Some after
    /\ dict_keys before = ["video_id"; "title"; "publishedAt"]
    /\ dict_keys after = ["video_id"; "title"; "publishedAt";
                          "views"; "likes"; "duration"; "comments"]
    /\ before <> after.
Proof.
  eexists _, _, _, _, _. repeat split; [reflexivity.. | discriminate].
Qed.

(** C9 (amended): the merge loop changes every summary that the lister
    returned, in place: the object at position [i] gets the four fields
    of the statistics of video [i] after its own three, which keep their
    values. *)
Theorem C9_merge_adds_fields ch yt videos videos_stats :
  get_channel_videos ch yt = Ok videos ->
  stats_comprehension videos yt = Ok videos_stats ->
  exists merged,
    merge_loop videos videos_stats = Ok merged
    /\ length merged = length videos
    /\ forall i (v : dict), videos !! i = Some v ->
         exists s : dict, videos_stats !! i = Some s
           /\ merged !! i = Some (v ++ s)%list
           /\ dict_keys v = summary_keys
           /\ dict_keys (v ++ s)%list = (summary_keys ++ stats_keys)%list
           /\ forall k, k ∈ summary_keys ->
                dict_lookup k (v ++ s)%list = dict_lookup k v.
Proof.
  intros Hv Hs.
  destruct (fetch_frame_merged _ _ _ _ Hv Hs) as (Hm & _ & Hlen & _).
  exists (zip_with dict_update videos videos_stats).
  split; [exact Hm|]. split; [rewrite length_zip_with; lia|].
  intros i v Hvi.
  destruct (lookup_lt_is_Some_2 videos_stats i) as [s Hsi].
  { apply lookup_lt_Some in Hvi. lia. }
  exists s. split; [exact Hsi|].
  pose proof (get_channel_videos_shape _ _ _ Hv) as Hshape.
  rewrite Forall_forall in Hshape.
  assert (Hsum : is_summary v) by (eapply Hshape, list_elem_of_lookup_2, Hvi).
  pose proof (stats_comprehension_shape _ _ _ Hs) as Hshape2.
  destruct (Forall2_lookup_r _ _ _ _ _ Hshape2 Hsi) as (_ & _ & Hst).
  split.
  { rewrite <- (merge_record v s Hsum Hst). apply lookup_zip_with_Some. eauto. }
  destruct Hsum as (a & b & c & ->). destruct Hst as (w & l & m & d & ->).
  repeat split.
  intros k Hk. unfold summary_keys in Hk.
  repeat (apply elem_of_cons in Hk as [->|Hk]; [reflexivity|]).
  inversion Hk.
Qed.

Lemma C9_merge_adds_fields_witness :
  exists merged,
    merge_loop scenario_summaries scenario_stats = Ok merged
    /\ length merged = 3%nat.
Proof.
  destruct (C9_merge_adds_fields "ch" scenario_channel scenario_summaries
              scenario_stats eq_refl eq_refl) as (merged & Hm & Hlen & _).
  exists merged. split; assumption.
Defined.

(** C10: for two video-detail responses whose [items] lists are
    non-empty and have the same first element, the stats fetcher gives
    the same result; the other items are ignored. *)
Theorem C10_only_first_item_counts video_id yt1 yt2 r1 r2 item rest1 rest2 :
  videos_list yt1 (stats_request video_id) = Ok r1 ->
  videos_list yt2 (stats_request video_id) = Ok r2 ->
  getitem r1 "items" = Ok (VList (item :: rest1)) ->
  getitem r2 "items" = Ok (VList (item :: rest2)) ->
  get_video_stats video_id yt1 = get_video_stats video_id yt2.
Proof.
  intros H1 H2 Hi1 Hi2. unfold get_video_stats. rewrite H1, H2. simpl.
  now apply (stats_of_response_head r1 r2 item rest1 rest2).
Qed.

Lemma C10_only_first_item_counts_witness :
  get_video_stats (VStr "a") scenario_channel
    = get_video_stats (VStr "a") padded_channel
  /\ get_video_stats (VStr "a") padded_channel = Ok (video_stats 100 10 5 120).
Proof.
  split; [|reflexivity].
  exact (C10_only_first_item_counts (VStr "a") scenario_channel padded_channel
           _ _ _ _ _ eq_refl eq_refl eq_refl eq_refl).
Defined.

(** * Further properties of the code *)

(** ** Counters *)

Lemma uint_chars_digits u :
  Forall (fun c => is_digit c = true)
         (list_ascii_of_string (NilEmpty.string_of_uint u)).
Proof. induction u; simpl; constructor; done. Qed.

Lemma digit_not_space c : is_digit c = true -> is_space c = false.
Proof.
  unfold is_digit, is_space. intros H.
  apply andb_true_iff in H as [H1 H2].
  apply N.leb_le in H1. apply N.leb_le in H2.
  apply orb_false_iff. split; apply andb_false_iff; right; apply N.leb_gt; lia.
Qed.

Lemma lstrip_digits l :
  Forall (fun c => is_digit c = true) l -> lstrip l = l.
Proof.
  destruct 1 as [|c l Hc _]; simpl; [done|].
  now rewrite (digit_not_space _ Hc).
Qed.

Lemma strip_digits l :
  Forall (fun c => is_digit c = true) l -> strip l = l.
Proof.
  intros H. unfold strip. rewrite (lstrip_digits l H).
  rewrite lstrip_digits by now apply List.Forall_rev.
  apply rev_involutive.
Qed.

Lemma int_digits_uint u : forall (a : nat),
  int_digits (Z.of_nat a) true (list_ascii_of_string (NilEmpty.string_of_uint u))
  = Some (Z.of_nat (Nat.of_uint_acc u a)).
Proof.
  induction u; intros a; simpl; [done|..];
    rewrite Nat.tail_mul_spec;
    match goal with
    | |- int_digits ?z _ _ = Some (Z.of_nat (Nat.of_uint_acc _ ?k)) =>
        replace z with (Z.of_nat k) by (unfold digit_val; simpl; lia)
    end; apply IHu.
Qed.

(** [int] reads the decimal numeral of every natural number back. *)
Lemma int_of_string_decimal n : int_of_string (decimal n) = Ok (Z.of_nat n).
Proof.
  unfold int_of_string, decimal.
  rewrite strip_digits by apply uint_chars_digits.
  rewrite <- (Unsigned.of_to n) at 2.
  pose proof (to_uint_nonnil n) as Hn. unfold Nat.of_uint.
  destruct (Nat.to_uint n) as [|u|u|u|u|u|u|u|u|u|u]; [congruence|..]; simpl;
    rewrite Nat.tail_mul_spec;
    match goal with
    | |- context [int_digits ?z true _] =>
        match goal with
        | |- context [Nat.of_uint_acc _ ?k] =>
            replace z with (Z.of_nat k) by (unfold digit_val; simpl; lia)
        end
    end; now rewrite int_digits_uint.
Qed.

Lemma counter_count_cell stats k n :
  dict_lookup k stats = count_cell n ->
  counter (VDict stats) k = Ok (count_value n).
Proof.
  intros H. unfold counter, get_default. rewrite H.
  destruct n as [n|]; simpl; [apply int_of_string_decimal | reflexivity].
Qed.

(** X1: the fetcher reads each counter of the [statistics] section from
    its decimal string and counts a missing counter as 0; the duration
    is what lines 87-88 make of the [contentDetails] section. *)
Theorem X1_fetcher_reads_counters
    video_id yt response item rest stats content_details d v l c :
  videos_list yt (stats_request video_id) = Ok response ->
  getitem response "items" = Ok (VList (item :: rest)) ->
  getitem item "statistics" = Ok (VDict stats) ->
  getitem item "contentDetails" = Ok content_details ->
  duration_seconds content_details = Ok d ->
  dict_lookup "viewCount" stats = count_cell v ->
  dict_lookup "likeCount" stats = count_cell l ->
  dict_lookup "commentCount" stats = count_cell c ->
  get_video_stats video_id yt
  = Ok (video_stats (count_value v) (count_value l) (count_value c) d).
Proof.
  intros Hr Hi Hst Hcd Hd Hv Hl Hc.
  unfold get_video_stats. rewrite Hr. cbn [mbind result_bind bind].
  unfold stats_of_response. rewrite Hi. cbn [mbind result_bind bind getitem0].
  rewrite Hst, Hcd. cbn [mbind result_bind bind]. rewrite Hd.
  cbn [mbind result_bind bind].
  rewrite (counter_count_cell _ _ _ Hv), (counter_count_cell _ _ _ Hl),
    (counter_count_cell _ _ _ Hc).
  reflexivity.
Qed.

Lemma X1_fetcher_reads_counters_witness :
  get_video_stats (VStr "a") scenario_channel = Ok (video_stats 100 10 5 120)
  /\ get_video_stats (VStr "x") bare_channel = Ok (video_stats 0 0 0 0).
Proof.
  split.
  - exact (X1_fetcher_reads_counters (VStr "a") scenario_channel _ _ _ _ _ _
             (Some 100%nat) (Some 10%nat) (Some 5%nat)
             eq_refl eq_refl eq_refl eq_refl eq_refl eq_refl eq_refl eq_refl).
  - exact (X1_fetcher_reads_counters (VStr "x") bare_channel _ _ _ _ _ _
             None None None
             eq_refl eq_refl eq_refl eq_refl eq_refl eq_refl eq_refl eq_refl).
Defined.

(** X2: only the fields inside the two sections have defaults.  An item
    without the [statistics] section makes the fetcher fail with
    [KeyError: 'statistics'], and an item with statistics but without
    [contentDetails] with [KeyError: 'contentDetails']. *)
Theorem X2_missing_section_raises_KeyError video_id yt response fields rest :
  videos_list yt (stats_request video_id) = Ok response ->
  getitem response "items" = Ok (VList (VDict fields :: rest)) ->
  (dict_lookup "statistics" fields = None ->
   get_video_stats video_id yt = Raise (KeyError (KStr "statistics")))
  /\ (is_Some (dict_lookup "statistics" fields) ->
      dict_lookup "contentDetails" fields = None ->
      get_video_stats video_id yt = Raise (KeyError (KStr "contentDetails"))).
Proof.
  intros Hr Hi.
  unfold get_video_stats. rewrite Hr. cbn [mbind result_bind bind].
  unfold stats_of_response. rewrite Hi.
  cbn [mbind result_bind bind getitem0 getitem].
  split.
  - now intros ->.
  - intros [st ->] ->. reflexivity.
Qed.

Lemma X2_missing_section_raises_KeyError_witness :
  get_video_stats (VStr "x") sectionless_channel
  = Raise (KeyError (KStr "contentDetails")).
Proof.
  refine (proj2 (X2_missing_section_raises_KeyError (VStr "x")
                   sectionless_channel _ _ _ eq_refl eq_refl) _ eq_refl).
  now eexists.
Defined.

(** ** The loops *)

Lemma videos_loop_raise good : forall bad rest video_data e,
  Forall (fun item => raises (video_summary item) = false) good ->
  video_summary bad = Raise e ->
  videos_loop (good ++ bad :: rest) video_data = Raise e.
Proof.
  induction good as [|item good IH]; intros bad rest video_data e Hgood Hbad; simpl.
  - now rewrite Hbad.
  - inversion Hgood as [|? ? Hitem Hgood']; subst.
    destruct (video_summary item) as [d|]; [|discriminate].
    cbn [mbind result_bind bind]. now apply IH.
Qed.

(** X3: one search result without [id.videoId] (a channel or a playlist
    among the results) makes the lister fail with [KeyError: 'videoId'];
    the summaries of the results before it are lost. *)
Theorem X3_lister_fails_on_non_video
    ch yt response good bad rest id_fields :
  search_list yt (channel_request ch) = Ok response ->
  getitem response "items" = Ok (VList (good ++ bad :: rest)) ->
  Forall (fun item => raises (video_summary item) = false) good ->
  getitem bad "id" = Ok (VDict id_fields) ->
  dict_lookup "videoId" id_fields = None ->
  get_channel_videos ch yt = Raise (KeyError (KStr "videoId")).
Proof.
  intros Hr Hi Hgood Hid Hvid.
  rewrite (get_channel_videos_items _ _ _ _ Hr Hi).
  apply videos_loop_raise; [done|].
  unfold video_summary. rewrite Hid. cbn [mbind result_bind bind getitem].
  now rewrite Hvid.
Qed.

Lemma X3_lister_fails_on_non_video_witness :
  get_channel_videos "ch" mixed_page = Raise (KeyError (KStr "videoId")).
Proof.
  refine (X3_lister_fails_on_non_video "ch" mixed_page _
            [search_item "a" "A" "2024-03-01T00:00:00Z"]
            (channel_item "ch" "Channel" "2020-01-01T00:00:00Z")
            [search_item "c" "C" "2024-01-01T00:00:00Z"] _
            eq_refl eq_refl _ eq_refl eq_refl).
  repeat constructor.
Defined.

Lemma stats_comprehension_cons v rest yt :
  stats_comprehension (v :: rest) yt
  = (st ← fetch_stats v yt;
     sts ← stats_comprehension rest yt;
     mret (st :: sts)).
Proof.
  unfold fetch_stats. cbn [stats_comprehension].
  now destruct (getitem (VDict v) "video_id").
Qed.

Lemma stats_comprehension_raise yt good : forall v rest e,
  Forall (fun g => raises (fetch_stats g yt) = false) good ->
  fetch_stats v yt = Raise e ->
  stats_comprehension (good ++ v :: rest) yt = Raise e.
Proof.
  induction good as [|g good IH]; intros v rest e Hgood Hv.
  - rewrite app_nil_l, stats_comprehension_cons. now rewrite Hv.
  - inversion Hgood as [|? ? Hg Hgood']; subst.
    rewrite <- app_comm_cons, stats_comprehension_cons.
    destruct (fetch_stats g yt) as [st|]; [|discriminate].
    cbn [mbind result_bind bind]. now rewrite (IH v rest e Hgood' Hv).
Qed.

(** X4: when the statistics of one listed video cannot be fetched, the
    whole run ends with that exception, whatever the regression step
    would do, and nothing has been printed: the statistics fetched for
    the videos before it are lost. *)
Theorem X4_failed_fetch_aborts_run
    (trainer : list (string * list val) -> list val -> result (float * float))
    ch yt good v rest e :
  get_channel_videos ch yt = Ok (good ++ v :: rest)%list ->
  Forall (fun g => raises (fetch_stats g yt) = false) good ->
  fetch_stats v yt = Raise e ->
  script trainer ch yt = {| output := []; outcome := Raise e |}.
Proof.
  intros Hv Hgood He. unfold script, fetch_frame. rewrite Hv.
  cbn [mbind result_bind bind].
  now rewrite (stats_comprehension_raise yt good v rest e Hgood He).
Qed.

Lemma X4_failed_fetch_aborts_run_witness :
  script strict_trainer "ch" vanished_channel
  = {| output := []; outcome := Raise IndexError |}.
Proof.
  refine (X4_failed_fetch_aborts_run strict_trainer "ch" vanished_channel
            [summary_record (VStr "a") (VStr "A") (VStr "2024-03-01T00:00:00Z")]
            (summary_record (VStr "b") (VStr "B") (VStr "2024-02-01T00:00:00Z"))
            [] IndexError eq_refl _ eq_refl).
  repeat constructor.
Defined.

(** X5: the merge loop takes the statistics by position.  With fewer
    statistics than videos it fails with [IndexError]; statistics beyond
    the last video are ignored. *)
Theorem X5_merge_loop_bounds (videos videos_stats extra : list dict) :
  ((length videos_stats < length videos)%nat ->
   merge_loop videos videos_stats = Raise IndexError)
  /\ (length videos = length videos_stats ->
      merge_loop videos (videos_stats ++ extra)%list
      = merge_loop videos videos_stats
      /\ merge_loop videos videos_stats
         = Ok (zip_with dict_update videos videos_stats)).
Proof.
  split; [apply merge_loop_short|].
  intros Hlen.
  rewrite !merge_loop_zip by (rewrite ?length_app; lia).
  split; [|done]. f_equal.
  rewrite zip_with_app_r, <- Hlen, firstn_all, drop_all. simpl.
  now rewrite app_nil_r.
Qed.

Lemma X5_merge_loop_bounds_witness :
  merge_loop scenario_summaries (take 2 scenario_stats) = Raise IndexError
  /\ merge_loop (take 2 scenario_summaries) scenario_stats
     = merge_loop (take 2 scenario_summaries) (take 2 scenario_stats).
Proof.
  split.
  - apply (proj1 (X5_merge_loop_bounds scenario_summaries
                    (take 2 scenario_stats) [])). simpl. lia.
  - exact (proj1 (proj2 (X5_merge_loop_bounds (take 2 scenario_summaries)
                           (take 2 scenario_stats) (drop 2 scenario_stats))
                     eq_refl)).
Defined.

(** ** The frame of a run *)












Lemma video_summary_fields item video_id title published :
  has_video_fields item video_id title published ->
  video_summary item = Ok (summary_record video_id title published).
Proof.
  intros (id & snippet & Hid & Hvid & Hsn & Ht & Hp).
  unfold video_summary. rewrite Hid. cbn [mbind result_bind bind].
  rewrite Hvid. cbn [mbind result_bind bind].
  rewrite Hsn. cbn [mbind result_bind bind].
  rewrite Ht. cbn [mbind result_bind bind].
  now rewrite Hp.
Qed.

(** X9: the lister copies three fields of each search result and nothing
    else.  When every item of the response has [id.videoId],
    [snippet.title] and [snippet.publishedAt], the lister returns, in the
    order of the response, the dicts
    [{'video_id': ..., 'title': ..., 'publishedAt': ...}] of these
    values, whatever else the items and the response contain. *)
Theorem X9_lister_copies_three_fields
    ch yt response items (fields : list (val * val * val)) :
  search_list yt (channel_request ch) = Ok response ->
  getitem response "items" = Ok (VList items) ->
  Forall2 (fun item t => has_video_fields item t.1.1 t.1.2 t.2) items fields ->
  get_channel_videos ch yt
  = Ok (map (fun t => summary_record t.1.1 t.1.2 t.2) fields).
Proof.
  intros Hr Hi Hall.
  rewrite (get_channel_videos_items _ _ _ _ Hr Hi).
  apply videos_loop_spec. eexists. split; [|reflexivity].
  clear Hi. induction Hall as [|item t items fields Ht _ IH]; simpl; [constructor|].
  constructor; [now apply video_summary_fields | exact IH].
Qed.

Lemma X9_lister_copies_three_fields_witness :
  get_channel_videos "ch" scenario_channel = Ok scenario_summaries.
Proof.
  refine (X9_lister_copies_three_fields "ch" scenario_channel _ _
            [(VStr "a", VStr "A", VStr "2024-03-01T00:00:00Z");
             (VStr "b", VStr "B", VStr "2024-02-01T00:00:00Z");
             (VStr "c", VStr "C", VStr "2024-01-01T00:00:00Z")]
            eq_refl eq_refl _).
  repeat constructor; eexists _, _; repeat split.
Defined.

Lemma stats_comprehension_spec yt videos : forall videos_stats,
  stats_comprehension videos yt = Ok videos_stats <->
  Forall2 (fun v s => fetch_stats v yt = Ok s) videos videos_stats.
Proof.
  induction videos as [|v videos IH]; intros videos_stats.
  - simpl. split.
    + intros [= <-]. constructor.
    + intros H. now inversion H.
  - rewrite stats_comprehension_cons. split.
    + intros H. inv_bind H. inv_bind H. injection H as <-.
      constructor; [done | now apply IH].
    + intros H. inversion H as [|? s ? ss Hs Hss]; subst.
      rewrite Hs. cbn [mbind result_bind bind].
      apply IH in Hss. now rewrite Hss.
Qed.

(** X10: the statistics stay with their video.  When the listing and
    every fetch succeed, the comprehension of line 100 holds one
    statistics dict per listed video, in order, each fetched for the
    [video_id] of the video at its position; so the merge loop cannot
    fail, and record [i] of the frame is the summary of video [i]
    followed by the statistics fetched for it. *)
Theorem X10_statistics_stay_with_their_video ch yt videos videos_stats :
  get_channel_videos ch yt = Ok videos ->
  stats_comprehension videos yt = Ok videos_stats ->
  length videos_stats = length videos
  /\ exists merged,
       merge_loop videos videos_stats = Ok merged
       /\ fetch_frame ch yt = Ok (make_frame merged)
       /\ forall i (v : dict), videos !! i = Some v ->
            exists (s : dict) video_id,
              videos_stats !! i = Some s
              /\ dict_lookup "video_id" v = Some video_id
              /\ get_video_stats video_id yt = Ok s
              /\ merged !! i = Some (v ++ s)%list.
Proof.
  intros Hv Hs.
  destruct (fetch_frame_merged _ _ _ _ Hv Hs) as (Hm & Hf & Hlen & _).
  split; [exact Hlen|].
  exists (zip_with dict_update videos videos_stats).
  split; [exact Hm|]. split; [exact Hf|].
  intros i v Hvi.
  pose proof (proj1 (stats_comprehension_spec _ _ _) Hs) as Hall.
  destruct (Forall2_lookup_l _ _ _ _ _ Hall Hvi) as (s & Hsi & Hfetch).
  pose proof (get_channel_videos_shape _ _ _ Hv) as Hshape.
  rewrite Forall_forall in Hshape.
  assert (Hsum : is_summary v) by (eapply Hshape, list_elem_of_lookup_2, Hvi).
  pose proof (stats_comprehension_shape _ _ _ Hs) as Hshape2.
  destruct (Forall2_lookup_r _ _ _ _ _ Hshape2 Hsi) as (_ & _ & Hst).
  destruct Hsum as (a & b & c & ->).
  exists s, a. split; [exact Hsi|]. split; [reflexivity|].
  split; [exact Hfetch|].
  rewrite <- (merge_record (summary_record a b c) s) by (try done; now eexists _, _, _).
  apply lookup_zip_with_Some. eauto.
Qed.

Lemma X10_statistics_stay_with_their_video_witness :
  length scenario_stats = length scenario_summaries
  /\ exists merged, merge_loop scenario_summaries scenario_stats = Ok merged.
Proof.
  destruct (X10_statistics_stay_with_their_video "ch" scenario_channel
              scenario_summaries scenario_stats eq_refl eq_refl)
    as (Hlen & merged & Hm & _).
  split; [exact Hlen | now exists merged].
Defined.

